(** * quic/handshake/FizzCryptoFactory.cpp

    A shallow embedding of the QUIC crypto factory and of its four record
    layer adapters.  Byte buffers are lists of bytes, the enumerations of
    the handshake engine are inductive types, a thrown [std::runtime_error]
    is the left injection of the [sum] error monad, and [read], which
    empties the queue it is handed, runs in a state monad over that
    queue. *)

From Stdlib Require Import List String Ascii Strings.Byte NArith ZArith Bool
  Lia.
From ExtLib Require Import Structures.Monad Structures.MonadState
  Structures.MonadExc Data.Monads.StateMonad Data.Monads.EitherMonad.
Import ListNotations.
Import MonadNotation.
Local Open Scope monad_scope.
Local Open Scope string_scope.

(** ** Buffers *)

Module folly.

(** [folly::ByteRange] and the contents of a [folly::IOBuf] chain. *)
Definition ByteRange := list byte.
Definition IOBuf := list byte.

(** [folly::StringPiece]; it converts to a [ByteRange] of the same
    characters. *)
Definition StringPiece := string.
Definition range_of_piece (s : StringPiece) : ByteRange :=
  list_byte_of_string s.

(** [folly::IOBuf::create(0)]: a fresh buffer holding no bytes. *)
Definition IOBuf_create0 : IOBuf := [].

(** [folly::IOBufQueue]: the bytes queued so far, oldest first. *)
Definition IOBufQueue := list byte.

(** [IOBufQueue::empty()]. *)
Definition empty (q : IOBufQueue) : bool :=
  match q with [] => true | _ :: _ => false end.

(** [IOBuf::coalesce()]: the bytes of the whole chain as one range. *)
Definition coalesce (b : IOBuf) : ByteRange := b.

(** [IOBufQueue::move()]: hands out everything queued and leaves the
    queue with nothing in it. *)
Definition move : state IOBufQueue IOBuf :=
  q <- get ;;
  put [] ;;
  ret q.

End folly.

(** ** The handshake engine's interface *)

Module fizz.

Inductive ContentType :=
| alert
| handshake
| application_data
| change_cipher_spec.

Inductive EncryptionLevel :=
| Plaintext
| Handshake
| EarlyData
| AppTraffic.

(** The two suites the factory names, and every other value the
    enumeration's underlying integer can take. *)
Inductive CipherSuite :=
| TLS_AES_128_GCM_SHA256
| TLS_AES_256_GCM_SHA384
| OtherCipherSuite (code : N).

Record TLSMessage := mkTLSMessage {
  type : ContentType;
  fragment : folly.IOBuf
}.

Record TLSContent := mkTLSContent {
  data : folly.IOBuf;
  contentType : ContentType;
  encryptionLevel : EncryptionLevel
}.

(** [fizz::KeyDerivation], the two members the factory calls. *)
Record KeyDerivation := mkKeyDerivation {
  hkdfExtract : folly.ByteRange -> folly.ByteRange -> folly.IOBuf;
  expandLabel :
    folly.ByteRange -> folly.StringPiece -> folly.IOBuf -> N -> folly.IOBuf
}.

Record TrafficKey := mkTrafficKey {
  key : folly.IOBuf;
  iv : folly.IOBuf
}.

(** [fizz::Sha256::HashLen]: a SHA-256 digest is 32 bytes. *)
Definition Sha256_HashLen : N := 32.

(** A [fizz::Aead] engine as the factory sees it: what [keyLength()] and
    [ivLength()] answer, and the traffic key installed in it, if any. *)
Record Aead := mkAead {
  keyLength : N;
  ivLength : N;
  trafficKey : option TrafficKey
}.

(** [Aead::setKey]. *)
Definition setKey (a : Aead) (k : TrafficKey) : Aead :=
  {| keyLength := keyLength a;
     ivLength := ivLength a;
     trafficKey := Some k |}.

(** [fizz::PlaintextWriteRecordLayer] and [fizz::EncryptedWriteRecordLayer]
    (and their read counterparts): the base classes hold the encryption
    level that [getEncryptionLevel()] reports.  The plaintext bases are
    default-constructed and report [Plaintext]; the encrypted bases store
    the level passed to their constructor. *)
Record PlaintextReadRecordLayer : Set := mkPlaintextReadRecordLayer { }.
Record PlaintextWriteRecordLayer : Set := mkPlaintextWriteRecordLayer { }.
Record EncryptedReadRecordLayer := mkEncryptedReadRecordLayer {
  er_encryptionLevel : EncryptionLevel
}.
Record EncryptedWriteRecordLayer := mkEncryptedWriteRecordLayer {
  ew_encryptionLevel : EncryptionLevel
}.

Definition pw_getEncryptionLevel (_ : PlaintextWriteRecordLayer)
  : EncryptionLevel := Plaintext.
Definition ew_getEncryptionLevel (l : EncryptedWriteRecordLayer)
  : EncryptionLevel := ew_encryptionLevel l.

End fizz.

(** ** Transport-side types *)

Module quic.

(** [quic::ConnectionId], seen through [folly::range]. *)
Definition ConnectionId := list byte.

(** The four versions the salt switch names, and every other value of
    the version tag. *)
Inductive QuicVersion :=
| MVFST_OLD
| MVFST
| QUIC_DRAFT_22
| QUIC_DRAFT
| OtherVersion (tag : N).

(** Whether the salt switch has a case for the version. *)
Definition recognized (v : QuicVersion) : bool :=
  match v with
  | OtherVersion _ => false
  | _ => true
  end.

(** The two packet number cipher classes. *)
Inductive PacketNumberCipherKind :=
| Aes128PacketNumberCipher
| Aes256PacketNumberCipher.

(** A [PacketNumberCipher] object: its class and the key set in it. *)
Record PacketNumberCipher := mkPacketNumberCipher {
  pn_kind : PacketNumberCipherKind;
  pn_key : option folly.ByteRange
}.

(** [PacketNumberCipher::setKey]. *)
Definition pn_setKey (c : PacketNumberCipher) (k : folly.ByteRange)
  : PacketNumberCipher :=
  {| pn_kind := pn_kind c; pn_key := Some k |}.

(** The transport-facing [quic::Aead]; [FizzAead::wrap] is its only
    constructor. *)
Inductive Aead :=
| FizzAead_wrap (fizzAead : fizz.Aead).

Definition unwrap (a : Aead) : fizz.Aead :=
  match a with FizzAead_wrap f => f end.

(** What [std::runtime_error] carries. *)
Definition runtime_error := string.

End quic.

Import fizz quic.

(** ** The record layer adapters (anonymous namespace) *)

Module QuicPlaintextReadRecordLayer.
Definition read (self : PlaintextReadRecordLayer)
  : state folly.IOBufQueue (option TLSMessage) :=
  buf <- get ;;
  if folly.empty buf then ret None
  else
    frag <- folly.move ;;
    ret (Some {| type := handshake; fragment := frag |}).
End QuicPlaintextReadRecordLayer.

Module QuicEncryptedReadRecordLayer.
Definition read (self : EncryptedReadRecordLayer)
  : state folly.IOBufQueue (option TLSMessage) :=
  buf <- get ;;
  if folly.empty buf then ret None
  else
    frag <- folly.move ;;
    ret (Some {| type := handshake; fragment := frag |}).
End QuicEncryptedReadRecordLayer.

Module QuicPlaintextWriteRecordLayer.
Definition write (self : PlaintextWriteRecordLayer) (msg : TLSMessage)
  : TLSContent :=
  {| data := fragment msg;
     contentType := type msg;
     encryptionLevel := pw_getEncryptionLevel self |}.

Definition writeInitialClientHello (self : PlaintextWriteRecordLayer)
    (encodedClientHello : folly.IOBuf) : TLSContent :=
  write self {| type := handshake; fragment := encodedClientHello |}.
End QuicPlaintextWriteRecordLayer.

Module QuicEncryptedWriteRecordLayer.
Definition write (self : EncryptedWriteRecordLayer) (msg : TLSMessage)
  : TLSContent :=
  {| data := fragment msg;
     contentType := type msg;
     encryptionLevel := ew_getEncryptionLevel self |}.
End QuicEncryptedWriteRecordLayer.


(** The four constructors of the factory. *)
Definition makePlaintextReadRecordLayer : PlaintextReadRecordLayer :=
  mkPlaintextReadRecordLayer.

Definition makePlaintextWriteRecordLayer : PlaintextWriteRecordLayer :=
  mkPlaintextWriteRecordLayer.

Definition makeEncryptedReadRecordLayer (encryptionLevel : EncryptionLevel)
  : EncryptedReadRecordLayer :=
  mkEncryptedReadRecordLayer encryptionLevel.

Definition makeEncryptedWriteRecordLayer (encryptionLevel : EncryptionLevel)
  : EncryptedWriteRecordLayer :=
  mkEncryptedWriteRecordLayer encryptionLevel.

(** ** Key material labels *)

(** Modelled from the spec: the three label constants [kQuicKeyLabel],
    [kQuicIVLabel] and [kQuicPNLabel] are declared in a header that is not
    among the sources at hand; the specification fixes their bytes. *)
Definition kQuicKeyLabel : folly.StringPiece := "quic key".
Definition kQuicIVLabel : folly.StringPiece := "quic iv".
Definition kQuicPNLabel : folly.StringPiece := "quic hp".

(** ** The suite-directed packet number cipher constructor *)

Definition makePacketNumberCipher_CipherSuite (cipher : CipherSuite)
  : runtime_error + PacketNumberCipher :=
  match cipher with
  | TLS_AES_128_GCM_SHA256 =>
      ret {| pn_kind := Aes128PacketNumberCipher; pn_key := None |}
  | TLS_AES_256_GCM_SHA384 =>
      ret {| pn_kind := Aes256PacketNumberCipher; pn_key := None |}
  | _ => raise "Packet number cipher not implemented"
  end.

(** ** Stand-ins for the primitives, to run the factory on concrete bytes *)

(** A key deriver that only concatenates and truncates.  It is no HKDF; it
    lets the factory be evaluated end to end. *)
Definition concatKeyDerivation : KeyDerivation :=
  {| hkdfExtract salt ikm := (salt ++ ikm)%list;
     expandLabel secret label hashValue length :=
       firstn (N.to_nat length)
              (secret ++ folly.range_of_piece label ++ hashValue)%list |}.

(** The same without the truncation, so that no two secrets expand to the
    same bytes. *)
Definition untruncatedKeyDerivation : KeyDerivation :=
  {| hkdfExtract salt ikm := (salt ++ ikm)%list;
     expandLabel secret label hashValue length :=
       (secret ++ folly.range_of_piece label ++ hashValue)%list |}.

Definition sampleAead (suite : CipherSuite) : fizz.Aead :=
  match suite with
  | TLS_AES_256_GCM_SHA384 =>
      {| keyLength := 32; ivLength := 12; trafficKey := None |}
  | _ => {| keyLength := 16; ivLength := 12; trafficKey := None |}
  end.

Definition samplePnKeyLength (k : PacketNumberCipherKind) : N :=
  match k with
  | Aes128PacketNumberCipher => 16
  | Aes256PacketNumberCipher => 32
  end.

Definition sampleConnId : ConnectionId :=
  [x83; x94; xc8; xf0; x3e; x51; x57; x08]%byte.

(** ** Equality test on version tags *)

Definition QuicVersion_eqb (a b : QuicVersion) : bool :=
  match a, b with
  | MVFST_OLD, MVFST_OLD => true
  | MVFST, MVFST => true
  | QUIC_DRAFT_22, QUIC_DRAFT_22 => true
  | QUIC_DRAFT, QUIC_DRAFT => true
  | OtherVersion s, OtherVersion t => N.eqb s t
  | _, _ => false
  end.

(** * quic/tools/tperf/tperf.cpp *)

(** ** Transport types the tool sets up *)

(** [quic::CongestionControlType], the enumerators the tool names. *)
Module CongestionControlType.
Inductive t :=
| Cubic
| NewReno
| Copa
| BBR
| None.
End CongestionControlType.

Definition CongestionControlType_eqb (a b : CongestionControlType.t) : bool :=
  match a, b with
  | CongestionControlType.Cubic, CongestionControlType.Cubic => true
  | CongestionControlType.NewReno, CongestionControlType.NewReno => true
  | CongestionControlType.Copa, CongestionControlType.Copa => true
  | CongestionControlType.BBR, CongestionControlType.BBR => true
  | CongestionControlType.None, CongestionControlType.None => true
  | _, _ => false
  end.

(** [quic::QuicBatchingMode]: the mode the tool names, and the others. *)
Inductive QuicBatchingMode :=
| BATCHING_MODE_GSO
| OtherBatchingMode (code : N).

(** [quic::TransportSettings], the members the tool assigns; the interval
    is in microseconds.  The struct is declared outside the sources at
    hand, so its defaults are an argument wherever they are needed. *)
Record TransportSettings := mkTransportSettings {
  maxCwndInMss : N;
  writeConnectionDataPacketsLimit : N;
  defaultCongestionController : CongestionControlType.t;
  pacingEnabled : bool;
  pacingTimerTickInterval : N;
  batchingMode : QuicBatchingMode;
  maxBatchSize : N;
  advertisedInitialUniStreamWindowSize : N;
  advertisedInitialConnectionWindowSize : N;
  connectUDP : bool
}.

(** Assignment to one member of the settings. *)
Definition set_maxCwndInMss (v : N)
    (s : TransportSettings) : TransportSettings :=
  {| maxCwndInMss := v;
     writeConnectionDataPacketsLimit := writeConnectionDataPacketsLimit s;
     defaultCongestionController := defaultCongestionController s;
     pacingEnabled := pacingEnabled s;
     pacingTimerTickInterval := pacingTimerTickInterval s;
     batchingMode := batchingMode s;
     maxBatchSize := maxBatchSize s;
     advertisedInitialUniStreamWindowSize := advertisedInitialUniStreamWindowSize s;
     advertisedInitialConnectionWindowSize := advertisedInitialConnectionWindowSize s;
     connectUDP := connectUDP s |}.

Definition set_writeConnectionDataPacketsLimit (v : N)
    (s : TransportSettings) : TransportSettings :=
  {| maxCwndInMss := maxCwndInMss s;
     writeConnectionDataPacketsLimit := v;
     defaultCongestionController := defaultCongestionController s;
     pacingEnabled := pacingEnabled s;
     pacingTimerTickInterval := pacingTimerTickInterval s;
     batchingMode := batchingMode s;
     maxBatchSize := maxBatchSize s;
     advertisedInitialUniStreamWindowSize := advertisedInitialUniStreamWindowSize s;
     advertisedInitialConnectionWindowSize := advertisedInitialConnectionWindowSize s;
     connectUDP := connectUDP s |}.

Definition set_defaultCongestionController (v : CongestionControlType.t)
    (s : TransportSettings) : TransportSettings :=
  {| maxCwndInMss := maxCwndInMss s;
     writeConnectionDataPacketsLimit := writeConnectionDataPacketsLimit s;
     defaultCongestionController := v;
     pacingEnabled := pacingEnabled s;
     pacingTimerTickInterval := pacingTimerTickInterval s;
     batchingMode := batchingMode s;
     maxBatchSize := maxBatchSize s;
     advertisedInitialUniStreamWindowSize := advertisedInitialUniStreamWindowSize s;
     advertisedInitialConnectionWindowSize := advertisedInitialConnectionWindowSize s;
     connectUDP := connectUDP s |}.

Definition set_pacingEnabled (v : bool)
    (s : TransportSettings) : TransportSettings :=
  {| maxCwndInMss := maxCwndInMss s;
     writeConnectionDataPacketsLimit := writeConnectionDataPacketsLimit s;
     defaultCongestionController := defaultCongestionController s;
     pacingEnabled := v;
     pacingTimerTickInterval := pacingTimerTickInterval s;
     batchingMode := batchingMode s;
     maxBatchSize := maxBatchSize s;
     advertisedInitialUniStreamWindowSize := advertisedInitialUniStreamWindowSize s;
     advertisedInitialConnectionWindowSize := advertisedInitialConnectionWindowSize s;
     connectUDP := connectUDP s |}.

Definition set_pacingTimerTickInterval (v : N)
    (s : TransportSettings) : TransportSettings :=
  {| maxCwndInMss := maxCwndInMss s;
     writeConnectionDataPacketsLimit := writeConnectionDataPacketsLimit s;
     defaultCongestionController := defaultCongestionController s;
     pacingEnabled := pacingEnabled s;
     pacingTimerTickInterval := v;
     batchingMode := batchingMode s;
     maxBatchSize := maxBatchSize s;
     advertisedInitialUniStreamWindowSize := advertisedInitialUniStreamWindowSize s;
     advertisedInitialConnectionWindowSize := advertisedInitialConnectionWindowSize s;
     connectUDP := connectUDP s |}.

Definition set_batchingMode (v : QuicBatchingMode)
    (s : TransportSettings) : TransportSettings :=
  {| maxCwndInMss := maxCwndInMss s;
     writeConnectionDataPacketsLimit := writeConnectionDataPacketsLimit s;
     defaultCongestionController := defaultCongestionController s;
     pacingEnabled := pacingEnabled s;
     pacingTimerTickInterval := pacingTimerTickInterval s;
     batchingMode := v;
     maxBatchSize := maxBatchSize s;
     advertisedInitialUniStreamWindowSize := advertisedInitialUniStreamWindowSize s;
     advertisedInitialConnectionWindowSize := advertisedInitialConnectionWindowSize s;
     connectUDP := connectUDP s |}.

Definition set_maxBatchSize (v : N)
    (s : TransportSettings) : TransportSettings :=
  {| maxCwndInMss := maxCwndInMss s;
     writeConnectionDataPacketsLimit := writeConnectionDataPacketsLimit s;
     defaultCongestionController := defaultCongestionController s;
     pacingEnabled := pacingEnabled s;
     pacingTimerTickInterval := pacingTimerTickInterval s;
     batchingMode := batchingMode s;
     maxBatchSize := v;
     advertisedInitialUniStreamWindowSize := advertisedInitialUniStreamWindowSize s;
     advertisedInitialConnectionWindowSize := advertisedInitialConnectionWindowSize s;
     connectUDP := connectUDP s |}.

Definition set_advertisedInitialUniStreamWindowSize (v : N)
    (s : TransportSettings) : TransportSettings :=
  {| maxCwndInMss := maxCwndInMss s;
     writeConnectionDataPacketsLimit := writeConnectionDataPacketsLimit s;
     defaultCongestionController := defaultCongestionController s;
     pacingEnabled := pacingEnabled s;
     pacingTimerTickInterval := pacingTimerTickInterval s;
     batchingMode := batchingMode s;
     maxBatchSize := maxBatchSize s;
     advertisedInitialUniStreamWindowSize := v;
     advertisedInitialConnectionWindowSize := advertisedInitialConnectionWindowSize s;
     connectUDP := connectUDP s |}.

Definition set_advertisedInitialConnectionWindowSize (v : N)
    (s : TransportSettings) : TransportSettings :=
  {| maxCwndInMss := maxCwndInMss s;
     writeConnectionDataPacketsLimit := writeConnectionDataPacketsLimit s;
     defaultCongestionController := defaultCongestionController s;
     pacingEnabled := pacingEnabled s;
     pacingTimerTickInterval := pacingTimerTickInterval s;
     batchingMode := batchingMode s;
     maxBatchSize := maxBatchSize s;
     advertisedInitialUniStreamWindowSize := advertisedInitialUniStreamWindowSize s;
     advertisedInitialConnectionWindowSize := v;
     connectUDP := connectUDP s |}.

Definition set_connectUDP (v : bool)
    (s : TransportSettings) : TransportSettings :=
  {| maxCwndInMss := maxCwndInMss s;
     writeConnectionDataPacketsLimit := writeConnectionDataPacketsLimit s;
     defaultCongestionController := defaultCongestionController s;
     pacingEnabled := pacingEnabled s;
     pacingTimerTickInterval := pacingTimerTickInterval s;
     batchingMode := batchingMode s;
     maxBatchSize := maxBatchSize s;
     advertisedInitialUniStreamWindowSize := advertisedInitialUniStreamWindowSize s;
     advertisedInitialConnectionWindowSize := advertisedInitialConnectionWindowSize s;
     connectUDP := v |}.

Definition StreamId := N.

(** What [std::invalid_argument] carries. *)
Definition invalid_argument := string.

(** ** Integer conversions *)

(** An [int32_t] passed where a [uint16_t] is expected. *)
Definition to_uint16 (z : Z) : N := Z.to_N (z mod 2 ^ 16).

(** [size_t] addition; the counters are 64 bits wide. *)
Definition size_t_add (a b : N) : N := ((a + b) mod 2 ^ 64)%N.

(** [std::numeric_limits<uint32_t>::max()]. *)
Definition uint32_max : N := 4294967295.

(** ** [std::map<StreamId, size_t>] *)

(** The entries in ascending key order, as the map iterates them. *)
Definition StreamMap := list (StreamId * N).

Fixpoint map_find (id : StreamId) (m : StreamMap) : option N :=
  match m with
  | [] => None
  | (k, v) :: rest => if (k =? id)%N then Some v else map_find id rest
  end.

(** [m[id] += n]: [operator[]] inserts a zero for a key that is not there,
    then the entry grows by [n]. *)
Fixpoint map_index_add (id : StreamId) (n : N) (m : StreamMap) : StreamMap :=
  match m with
  | [] => [(id, size_t_add 0 n)]
  | (k, v) :: rest =>
      if (id <? k)%N then (id, size_t_add 0 n) :: (k, v) :: rest
      else if (id =? k)%N then (k, size_t_add v n) :: rest
      else (k, v) :: map_index_add id n rest
  end.

(** The keys ascend strictly: the ordering the map maintains. *)
Fixpoint keys_above (bound : N) (m : StreamMap) : Prop :=
  match m with
  | [] => True
  | (k, _) :: rest => (bound < k)%N /\ keys_above k rest
  end.

Definition keys_ascend (m : StreamMap) : Prop :=
  match m with
  | [] => True
  | (k, _) :: rest => keys_above k rest
  end.

Definition map_total (m : StreamMap) : N :=
  fold_right (fun e acc => (snd e + acc)%N) 0%N m.

(** ** Command line flags *)

Record Flags := mkFlags {
  FLAGS_host : string;
  FLAGS_port : Z;
  FLAGS_mode : string;
  FLAGS_duration : Z;
  FLAGS_block_size : N;
  FLAGS_writes_per_loop : N;
  FLAGS_window : N;
  FLAGS_congestion : string;
  FLAGS_pacing : bool;
  FLAGS_gso : bool;
  FLAGS_client_transport_timer_resolution_ms : N;
  FLAGS_server_qlogger_path : string;
  FLAGS_max_cwnd_mss : N;
  FLAGS_num_streams : N
}.

(** The values the [DEFINE_...] lines give; [kLargeMaxCwndInMss] is
    declared elsewhere. *)
Definition defaultFlags (kLargeMaxCwndInMss : N) : Flags :=
  {| FLAGS_host := "::1";
     FLAGS_port := 6666;
     FLAGS_mode := "server";
     FLAGS_duration := 10;
     FLAGS_block_size := 4096;
     FLAGS_writes_per_loop := 5;
     FLAGS_window := 64 * 1024;
     FLAGS_congestion := "newreno";
     FLAGS_pacing := false;
     FLAGS_gso := false;
     FLAGS_client_transport_timer_resolution_ms := 1;
     FLAGS_server_qlogger_path := "";
     FLAGS_max_cwnd_mss := kLargeMaxCwndInMss;
     FLAGS_num_streams := 1 |}.

Definition flagsToCongestionControlType (congestionControlType : string)
  : invalid_argument + CongestionControlType.t :=
  if String.eqb congestionControlType "cubic" then
    ret CongestionControlType.Cubic
  else if String.eqb congestionControlType "newreno" then
    ret CongestionControlType.NewReno
  else if String.eqb congestionControlType "bbr" then
    ret CongestionControlType.BBR
  else if String.eqb congestionControlType "copa" then
    ret CongestionControlType.Copa
  else if String.eqb congestionControlType "none" then
    ret CongestionControlType.None
  else
    raise ("Unknown congestion controller " ++ congestionControlType).

(** The names the function compares its argument with. *)
Definition congestionNames : list string :=
  ["cubic"; "newreno"; "bbr"; "copa"; "none"].

(** ** The server *)

Record TPerfServerTransportFactory := mkTPerfServerTransportFactory {
  factory_blockSize_ : N;
  factory_numStreams_ : N
}.

(** A [TPerfServer] once constructed: its address, the transport factory
    and the settings it gave the [QuicServer]. *)
Record TPerfServer := mkTPerfServer {
  server_host_ : string;
  server_port_ : N;
  server_transportFactory : TPerfServerTransportFactory;
  server_transportSettings : TransportSettings
}.

(** The constructor; [settings0] is a default-initialised
    [quic::TransportSettings]. *)
Definition TPerfServer_ctor (settings0 : TransportSettings)
    (host : string) (port : N) (blockSize writesPerLoop : N)
    (congestionControlType : CongestionControlType.t) (gso : bool)
    (maxCwndInMss : N) (pacing : bool) (numStreams : N) : TPerfServer :=
  let factory :=
    {| factory_blockSize_ := blockSize; factory_numStreams_ := numStreams |} in
  let settings := settings0 in
  let settings := set_maxCwndInMss maxCwndInMss settings in
  let settings := set_writeConnectionDataPacketsLimit writesPerLoop settings in
  let settings :=
    set_defaultCongestionController congestionControlType settings in
  let settings := set_pacingEnabled pacing settings in
  let settings :=
    if pacing then set_pacingTimerTickInterval 200 settings else settings in
  let settings :=
    if gso then
      set_maxBatchSize 16 (set_batchingMode BATCHING_MODE_GSO settings)
    else settings in
  {| server_host_ := host;
     server_port_ := port;
     server_transportFactory := factory;
     server_transportSettings := settings |}.

(** ** The client *)

Record TPerfClient := mkTPerfClient {
  client_host_ : string;
  client_port_ : N;
  client_transportTimerResolution : N;
  receivedBytes_ : N;
  bytesPerStream_ : StreamMap;
  duration_ : Z;
  window_ : N;
  gso_ : bool;
  congestionControlType_ : CongestionControlType.t
}.

Definition TPerfClient_ctor (host : string) (port : N)
    (transportTimerResolution : N) (duration : Z) (window : N) (gso : bool)
    (congestionControlType : CongestionControlType.t) : TPerfClient :=
  {| client_host_ := host;
     client_port_ := port;
     client_transportTimerResolution := transportTimerResolution;
     receivedBytes_ := 0;
     bytesPerStream_ := [];
     duration_ := duration;
     window_ := window;
     gso_ := gso;
     congestionControlType_ := congestionControlType |}.

(** [quic::LocalErrorCode], the error side of what the transport's [read]
    returns. *)
Definition LocalErrorCode := N.

(** What [quicClient_->read(streamId, 0)] returned: an error, or the data
    and the end-of-stream mark. *)
Definition ReadResult : Type := LocalErrorCode + (folly.IOBuf * bool).

(** [IOBuf::computeChainDataLength()]. *)
Definition computeChainDataLength (b : folly.IOBuf) : N :=
  N.of_nat (List.length b).

(** [TPerfClient::readAvailable], given what the transport's [read]
    returned to it.  [LOG(FATAL)] ends the process: no client is left. *)
Definition TPerfClient_readAvailable (self : TPerfClient)
    (streamId : StreamId) (readData : ReadResult) : option TPerfClient :=
  match readData with
  | inl _ => None
  | inr (buf, _) =>
      let readBytes := computeChainDataLength buf in
      Some {| client_host_ := client_host_ self;
              client_port_ := client_port_ self;
              client_transportTimerResolution :=
                client_transportTimerResolution self;
              receivedBytes_ := size_t_add (receivedBytes_ self) readBytes;
              bytesPerStream_ :=
                map_index_add streamId readBytes (bytesPerStream_ self);
              duration_ := duration_ self;
              window_ := window_ self;
              gso_ := gso_ self;
              congestionControlType_ := congestionControlType_ self |}
  end.

(** The transport calling [readAvailable] once per entry, in order. *)
Fixpoint TPerfClient_readAvailable_all (self : TPerfClient)
    (calls : list (StreamId * ReadResult)) : option TPerfClient :=
  match calls with
  | [] => Some self
  | (streamId, readData) :: rest =>
      match TPerfClient_readAvailable self streamId readData with
      | Some self' => TPerfClient_readAvailable_all self' rest
      | None => None
      end
  end.

(** Whether some call was for the stream. *)
Definition called_on (id : StreamId) (calls : list (StreamId * ReadResult))
  : bool :=
  existsb (fun c => (fst c =? id)%N) calls.

(** The bytes the successful calls on one stream delivered. *)
Fixpoint delivered_on (id : StreamId) (calls : list (StreamId * ReadResult))
  : N :=
  match calls with
  | [] => 0
  | (k, inr (buf, _)) :: rest =>
      ((if (k =? id)%N then computeChainDataLength buf else 0)
       + delivered_on id rest)%N
  | (_, inl _) :: rest => delivered_on id rest
  end.

(** The bytes all successful calls delivered. *)
Fixpoint delivered (calls : list (StreamId * ReadResult)) : N :=
  match calls with
  | [] => 0
  | (_, inr (buf, _)) :: rest => (computeChainDataLength buf + delivered rest)%N
  | (_, inl _) :: rest => delivered rest
  end.


(** What holds of the client after any run of calls that it survived. *)
Definition counters_ok (calls : list (StreamId * ReadResult))
    (c : TPerfClient) : Prop :=
  keys_ascend (bytesPerStream_ c) /\
  receivedBytes_ c = (delivered calls mod 2 ^ 64)%N /\
  receivedBytes_ c = (map_total (bytesPerStream_ c) mod 2 ^ 64)%N /\
  forall id,
    map_find id (bytesPerStream_ c) =
    if called_on id calls
    then Some (delivered_on id calls mod 2 ^ 64)%N
    else None.

(** [TPerfClient::start], as far as the settings it hands to the transport;
    [settings0] is what [quicClient_->getTransportSettings()] returned. *)
Definition TPerfClient_start (self : TPerfClient)
    (settings0 : TransportSettings) : TransportSettings :=
  let settings := settings0 in
  let settings :=
    set_advertisedInitialUniStreamWindowSize (window_ self) settings in
  let settings :=
    set_advertisedInitialConnectionWindowSize uint32_max settings in
  let settings := set_connectUDP true settings in
  let settings :=
    set_defaultCongestionController (congestionControlType_ self) settings in
  let settings :=
    if CongestionControlType_eqb (congestionControlType_ self)
                                 CongestionControlType.BBR
    then set_pacingTimerTickInterval 200 (set_pacingEnabled true settings)
    else settings in
  let settings :=
    if gso_ self then
      set_maxBatchSize 16 (set_batchingMode BATCHING_MODE_GSO settings)
    else settings in
  settings.

(** ** [main] *)

(** What [main] has set running when it reaches the event loop, or that it
    went straight to [return 0]. *)
Inductive Started :=
| ServerStarted (server : TPerfServer)
| ClientStarted (client : TPerfClient) (settings : TransportSettings)
| NothingStarted.

(** [serverSettings0] is a default-initialised [TransportSettings],
    [clientSettings0] the settings of a new client transport. *)
Definition main (serverSettings0 clientSettings0 : TransportSettings)
    (flags : Flags) : invalid_argument + Started :=
  if String.eqb (FLAGS_mode flags) "server" then
    congestionControlType <-
      flagsToCongestionControlType (FLAGS_congestion flags) ;;
    ret (ServerStarted
           (TPerfServer_ctor serverSettings0
              (FLAGS_host flags)
              (to_uint16 (FLAGS_port flags))
              (FLAGS_block_size flags)
              (FLAGS_writes_per_loop flags)
              congestionControlType
              (FLAGS_gso flags)
              (FLAGS_max_cwnd_mss flags)
              (FLAGS_pacing flags)
              (FLAGS_num_streams flags)))
  else if String.eqb (FLAGS_mode flags) "client" then
    congestionControlType <-
      flagsToCongestionControlType (FLAGS_congestion flags) ;;
    let client :=
      TPerfClient_ctor
        (FLAGS_host flags)
        (to_uint16 (FLAGS_port flags))
        (FLAGS_client_transport_timer_resolution_ms flags)
        (FLAGS_duration flags)
        (FLAGS_window flags)
        (FLAGS_gso flags)
        congestionControlType in
    ret (ClientStarted client (TPerfClient_start client clientSettings0))
  else ret NothingStarted.

(** Settings to run the tool on; they stand for the defaults, which are
    declared elsewhere. *)
Definition sampleSettings : TransportSettings :=
  {| maxCwndInMss := 2000;
     writeConnectionDataPacketsLimit := 5;
     defaultCongestionController := CongestionControlType.Cubic;
     pacingEnabled := false;
     pacingTimerTickInterval := 1000;
     batchingMode := OtherBatchingMode 0;
     maxBatchSize := 1;
     advertisedInitialUniStreamWindowSize := 65536;
     advertisedInitialConnectionWindowSize := 65536;
     connectUDP := false |}.

(** Three calls on two streams, the last one delivering nothing. *)
Definition sampleCalls : list (StreamId * ReadResult) :=
  [ (3%N, inr ([x01; x02]%byte, false));
    (7%N, inr ([x03]%byte, false));
    (3%N, inr ([], true)) ].

(** A command line: the defaults, but for the four flags given. *)
Definition sampleFlags (mode : string) (port : Z) (pacing : bool)
    (window : N) : Flags :=
  {| FLAGS_host := "::1";
     FLAGS_port := port;
     FLAGS_mode := mode;
     FLAGS_duration := 10;
     FLAGS_block_size := 4096;
     FLAGS_writes_per_loop := 5;
     FLAGS_window := window;
     FLAGS_congestion := "newreno";
     FLAGS_pacing := pacing;
     FLAGS_gso := false;
     FLAGS_client_transport_timer_resolution_ms := 1;
     FLAGS_server_qlogger_path := "";
     FLAGS_max_cwnd_mss := 2000;
     FLAGS_num_streams := 1 |}.

(** * quic/handshake/FizzCryptoFactory.cpp: the factory *)

Section FizzCryptoFactory.

(** The salt constants come from a header that is not among the sources;
    their bytes are left open. *)
Variables kQuicDraft17Salt kQuicDraft22Salt kQuicDraft23Salt
  : folly.StringPiece.

(** [fizz::Factory::makeKeyDeriver] and [fizz::Factory::makeAead], which
    the factory inherits, and [PacketNumberCipher::keyLength()]. *)
Variable makeKeyDeriver : CipherSuite -> KeyDerivation.
Variable makeAead : CipherSuite -> fizz.Aead.
Variable pn_keyLength : PacketNumberCipherKind -> N.

Definition makeInitialTrafficSecret (label : folly.StringPiece)
    (clientDestinationConnId : ConnectionId) (version : QuicVersion)
  : folly.IOBuf :=
  let deriver := makeKeyDeriver TLS_AES_128_GCM_SHA256 in
  let connIdRange : folly.ByteRange := clientDestinationConnId in
  let salt :=
    match version with
    | MVFST_OLD => kQuicDraft17Salt
    | MVFST | QUIC_DRAFT_22 => kQuicDraft22Salt
    | QUIC_DRAFT => kQuicDraft23Salt
    | _ => kQuicDraft17Salt
    end in
  let initialSecret :=
    hkdfExtract deriver (folly.range_of_piece salt) connIdRange in
  let trafficSecret :=
    expandLabel deriver initialSecret label folly.IOBuf_create0
                Sha256_HashLen in
  trafficSecret.

Definition makeInitialAead (label : folly.StringPiece)
    (clientDestinationConnId : ConnectionId) (version : QuicVersion)
  : quic.Aead :=
  let trafficSecret :=
    makeInitialTrafficSecret label clientDestinationConnId version in
  let deriver := makeKeyDeriver TLS_AES_128_GCM_SHA256 in
  let aead := makeAead TLS_AES_128_GCM_SHA256 in
  let key :=
    expandLabel deriver (folly.coalesce trafficSecret) kQuicKeyLabel
                folly.IOBuf_create0 (keyLength aead) in
  let iv :=
    expandLabel deriver (folly.coalesce trafficSecret) kQuicIVLabel
                folly.IOBuf_create0 (ivLength aead) in
  let trafficKey := {| key := key; iv := iv |} in
  let aead := setKey aead trafficKey in
  FizzAead_wrap aead.

Definition makePacketNumberCipher_ByteRange (baseSecret : folly.ByteRange)
  : runtime_error + PacketNumberCipher :=
  pnCipher <- makePacketNumberCipher_CipherSuite TLS_AES_128_GCM_SHA256 ;;
  let deriver := makeKeyDeriver TLS_AES_128_GCM_SHA256 in
  let pnKey :=
    expandLabel deriver baseSecret kQuicPNLabel folly.IOBuf_create0
                (pn_keyLength (pn_kind pnCipher)) in
  ret (pn_setKey pnCipher (folly.coalesce pnKey)).

(** ** The derivation as the specification words it *)

(** The version-to-salt table: one entry per recognised version. *)
Definition spec_versionSaltTable : list (QuicVersion * folly.StringPiece) :=
  [ (MVFST_OLD, kQuicDraft17Salt);
    (MVFST, kQuicDraft22Salt);
    (QUIC_DRAFT_22, kQuicDraft22Salt);
    (QUIC_DRAFT, kQuicDraft23Salt) ].

(** The salt a version selects: its table entry, or the default one. *)
Definition spec_salt (version : QuicVersion) : folly.StringPiece :=
  match find (fun e => QuicVersion_eqb version (fst e))
             spec_versionSaltTable with
  | Some e => snd e
  | None => kQuicDraft17Salt
  end.

(** HKDF-Expand-Label (HKDF-Extract (salt, id), label, empty, hash length),
    with the deriver of the 128-bit suite. *)
Definition spec_deriveInitialTrafficSecret (label : folly.StringPiece)
    (destinationConnectionId : ConnectionId) (version : QuicVersion)
  : folly.IOBuf :=
  let kd := makeKeyDeriver TLS_AES_128_GCM_SHA256 in
  expandLabel kd
    (hkdfExtract kd (folly.range_of_piece (spec_salt version))
                 destinationConnectionId)
    label [] 32%N.

(** * Properties *)

(** ** Record layers *)

Lemma plaintext_read_run (self : PlaintextReadRecordLayer)
    (buf : folly.IOBufQueue) :
  runState (QuicPlaintextReadRecordLayer.read self) buf =
  if folly.empty buf then (None, buf)
  else (Some {| type := handshake; fragment := buf |}, []).
Proof. destruct buf; reflexivity. Qed.

Lemma encrypted_read_run (self : EncryptedReadRecordLayer)
    (buf : folly.IOBufQueue) :
  runState (QuicEncryptedReadRecordLayer.read self) buf =
  if folly.empty buf then (None, buf)
  else (Some {| type := handshake; fragment := buf |}, []).
Proof. destruct buf; reflexivity. Qed.

Example plaintext_read_two_bytes :
  runState (QuicPlaintextReadRecordLayer.read makePlaintextReadRecordLayer)
           [x16; x03]%byte =
  (Some {| type := handshake; fragment := [x16; x03]%byte |}, []).
Proof. reflexivity. Qed.

Example encrypted_read_nothing :
  runState (QuicEncryptedReadRecordLayer.read
              (makeEncryptedReadRecordLayer AppTraffic)) [] = (None, []).
Proof. reflexivity. Qed.

(** C6. Both read adapters, on a queue that reports empty, return no
    message and leave the queue as it is (so neither an error nor a message
    with an empty fragment); on a queue that does not report empty they
    return exactly one message, of content type handshake, whose fragment is
    all the queued bytes, and the queue is left with nothing in it: the
    queue is never consumed in part. *)
Theorem read_whole_buffer_or_nothing (level : EncryptionLevel)
    (buf : folly.IOBufQueue) :
  let plaintextRead :=
    runState
      (QuicPlaintextReadRecordLayer.read makePlaintextReadRecordLayer) in
  let encryptedRead :=
    runState
      (QuicEncryptedReadRecordLayer.read
         (makeEncryptedReadRecordLayer level)) in
  (folly.empty buf = true ->
     plaintextRead buf = (None, buf) /\ encryptedRead buf = (None, buf))
  /\
  (folly.empty buf = false ->
     plaintextRead buf =
       (Some {| type := handshake; fragment := buf |}, []) /\
     encryptedRead buf =
       (Some {| type := handshake; fragment := buf |}, [])).
Proof.
  cbv zeta. rewrite plaintext_read_run, encrypted_read_run.
  split; intros ->; split; reflexivity.
Qed.

(** C10. The two read adapters are the same function of the queue: on every
    queue they return the same message (or none) and leave the same queue
    behind, whatever encryption level the encrypted one was built with. *)
Theorem read_plaintext_encrypted_agree (level : EncryptionLevel)
    (buf : folly.IOBufQueue) :
  runState
    (QuicEncryptedReadRecordLayer.read (makeEncryptedReadRecordLayer level))
    buf =
  runState
    (QuicPlaintextReadRecordLayer.read makePlaintextReadRecordLayer) buf.
Proof.
  rewrite plaintext_read_run, encrypted_read_run. reflexivity.
Qed.

(** C7. Both write adapters return a content whose data is the fragment of
    the message, byte for byte, whose content type is the message's, and
    whose encryption level is the adapter's own: the level the encrypted
    adapter was built with, and the plaintext level of its base class for the
    plaintext one. *)
Theorem write_repackages_message (level : EncryptionLevel)
    (msg : TLSMessage) :
  let p :=
    QuicPlaintextWriteRecordLayer.write makePlaintextWriteRecordLayer msg in
  let e :=
    QuicEncryptedWriteRecordLayer.write
      (makeEncryptedWriteRecordLayer level) msg in
  (data p = fragment msg /\ contentType p = type msg /\
   encryptionLevel p = pw_getEncryptionLevel makePlaintextWriteRecordLayer /\
   encryptionLevel p = Plaintext)
  /\
  (data e = fragment msg /\ contentType e = type msg /\
   encryptionLevel e =
     ew_getEncryptionLevel (makeEncryptedWriteRecordLayer level) /\
   encryptionLevel e = level).
Proof. cbv zeta. repeat split. Qed.

(** C8. Writing an initial client hello is writing the handshake-typed
    message whose fragment is the encoded bytes. *)
Theorem writeInitialClientHello_is_write
    (self : PlaintextWriteRecordLayer) (encodedClientHello : folly.IOBuf) :
  QuicPlaintextWriteRecordLayer.writeInitialClientHello
    self encodedClientHello =
  QuicPlaintextWriteRecordLayer.write self
    {| type := handshake; fragment := encodedClientHello |}
  /\
  QuicPlaintextWriteRecordLayer.writeInitialClientHello
    self encodedClientHello =
  {| data := encodedClientHello;
     contentType := handshake;
     encryptionLevel := Plaintext |}.
Proof. split; reflexivity. Qed.

(** ** Packet number ciphers *)

Lemma makePacketNumberCipher_CipherSuite_cases (cipher : CipherSuite) :
  match cipher with
  | TLS_AES_128_GCM_SHA256 =>
      makePacketNumberCipher_CipherSuite cipher =
      inr {| pn_kind := Aes128PacketNumberCipher; pn_key := None |}
  | TLS_AES_256_GCM_SHA384 =>
      makePacketNumberCipher_CipherSuite cipher =
      inr {| pn_kind := Aes256PacketNumberCipher; pn_key := None |}
  | OtherCipherSuite _ =>
      makePacketNumberCipher_CipherSuite cipher =
      inl "Packet number cipher not implemented"
  end.
Proof. destruct cipher; reflexivity. Qed.

(** C3. The suite-directed constructor returns a cipher of the 128-bit
    class exactly for the 128-bit AES-GCM suite and one of the 256-bit class
    exactly for the 256-bit AES-GCM suite; for every other suite it throws
    the runtime error that says the cipher is not implemented.  A cipher it
    returns has no key in it: nothing is derived. *)
Theorem makePacketNumberCipher_CipherSuite_dispatch (cipher : CipherSuite) :
  ((exists c, makePacketNumberCipher_CipherSuite cipher = inr c /\
              pn_kind c = Aes128PacketNumberCipher)
   <-> cipher = TLS_AES_128_GCM_SHA256)
  /\
  ((exists c, makePacketNumberCipher_CipherSuite cipher = inr c /\
              pn_kind c = Aes256PacketNumberCipher)
   <-> cipher = TLS_AES_256_GCM_SHA384)
  /\
  (makePacketNumberCipher_CipherSuite cipher =
     inl "Packet number cipher not implemented"
   <-> cipher <> TLS_AES_128_GCM_SHA256 /\ cipher <> TLS_AES_256_GCM_SHA384)
  /\
  (forall c, makePacketNumberCipher_CipherSuite cipher = inr c ->
             pn_key c = None).
Proof.
  pose proof (makePacketNumberCipher_CipherSuite_cases cipher) as H.
  destruct cipher; rewrite H; clear H.
  all: repeat match goal with |- _ /\ _ => split | |- _ <-> _ => split end.
  all: try reflexivity.
  all: try (intros [c [E K]]; inversion E; subst c; discriminate K).
  all: try (intros E; discriminate E).
  all: try (intros _; eexists; split; reflexivity).
  all: try (intros [A B]; congruence).
  all: try (intros c E; inversion E; reflexivity).
  all: try (intros _; split; discriminate).
Qed.

(** C4. From a base secret the factory builds the packet number cipher of
    the 128-bit suite, sets in it the key expanded from the base secret
    under the label "quic hp" with an empty context and that cipher's key
    length, and returns it; it does not throw. *)
Theorem makePacketNumberCipher_ByteRange_installs_hp_key
    (baseSecret : folly.ByteRange) :
  let kd := makeKeyDeriver TLS_AES_128_GCM_SHA256 in
  makePacketNumberCipher_ByteRange baseSecret =
  inr {| pn_kind := Aes128PacketNumberCipher;
         pn_key :=
           Some (expandLabel kd baseSecret "quic hp" []
                             (pn_keyLength Aes128PacketNumberCipher)) |}
  /\
  makePacketNumberCipher_CipherSuite TLS_AES_128_GCM_SHA256 =
  inr {| pn_kind := Aes128PacketNumberCipher; pn_key := None |}.
Proof. split; reflexivity. Qed.

(** ** Initial secrets *)

(** The salt switch of the code and the table lookup select the same
    constant. *)
Lemma spec_salt_switch (version : QuicVersion) :
  spec_salt version =
  match version with
  | MVFST_OLD => kQuicDraft17Salt
  | MVFST | QUIC_DRAFT_22 => kQuicDraft22Salt
  | QUIC_DRAFT => kQuicDraft23Salt
  | OtherVersion _ => kQuicDraft17Salt
  end.
Proof. destruct version; reflexivity. Qed.

Lemma makeInitialTrafficSecret_refines (label : folly.StringPiece)
    (cid : ConnectionId) (version : QuicVersion) :
  makeInitialTrafficSecret label cid version =
  spec_deriveInitialTrafficSecret label cid version.
Proof.
  unfold makeInitialTrafficSecret, spec_deriveInitialTrafficSecret.
  rewrite spec_salt_switch. destruct version; reflexivity.
Qed.

Lemma recognized_in_table (version : QuicVersion) :
  recognized version = true ->
  In (version, spec_salt version) spec_versionSaltTable.
Proof.
  destruct version; intros H; try discriminate H; simpl; tauto.
Qed.

Lemma unrecognized_default (version : QuicVersion) :
  recognized version = false -> spec_salt version = kQuicDraft17Salt.
Proof.
  destruct version; intros H; try discriminate H. reflexivity.
Qed.

(** C1. The initial traffic secret is the expansion, under the given label
    with an empty context and the SHA-256 digest length, of the extraction
    of the destination connection id under the salt of the version, both
    steps by the deriver of the 128-bit suite.  The salt of a version the
    table lists is its table entry (the table has four entries); the salt of
    any other version is the default constant.  The derivation is a total
    function of its three arguments: it returns a buffer for every input
    and touches no state. *)
Theorem makeInitialTrafficSecret_is_hkdf_chain (label : folly.StringPiece)
    (destinationConnectionId : ConnectionId) (version : QuicVersion) :
  let kd := makeKeyDeriver TLS_AES_128_GCM_SHA256 in
  makeInitialTrafficSecret label destinationConnectionId version =
  expandLabel kd
    (hkdfExtract kd (folly.range_of_piece (spec_salt version))
                 destinationConnectionId)
    label [] Sha256_HashLen
  /\
  (if recognized version
   then In (version, spec_salt version) spec_versionSaltTable
   else spec_salt version = kQuicDraft17Salt)
  /\
  List.length spec_versionSaltTable = 4.
Proof.
  cbv zeta. split; [apply makeInitialTrafficSecret_refines |].
  split; [| reflexivity].
  destruct (recognized version) eqn:R.
  - now apply recognized_in_table.
  - now apply unrecognized_default.
Qed.

(** C2. The initial AEAD is the engine made for the 128-bit AES-GCM suite,
    holding the key and the iv expanded from the initial traffic secret
    under the labels "quic key" and "quic iv", with an empty context and the
    lengths that engine asks for, wrapped for the transport. *)
Theorem makeInitialAead_installs_key_iv (label : folly.StringPiece)
    (destinationConnectionId : ConnectionId) (version : QuicVersion) :
  let kd := makeKeyDeriver TLS_AES_128_GCM_SHA256 in
  let engine := makeAead TLS_AES_128_GCM_SHA256 in
  let secret :=
    expandLabel kd
      (hkdfExtract kd (folly.range_of_piece (spec_salt version))
                   destinationConnectionId)
      label [] Sha256_HashLen in
  makeInitialTrafficSecret label destinationConnectionId version = secret
  /\
  makeInitialAead label destinationConnectionId version =
  FizzAead_wrap
    (setKey engine
       {| key := expandLabel kd secret "quic key" [] (keyLength engine);
          iv := expandLabel kd secret "quic iv" [] (ivLength engine) |})
  /\
  trafficKey (unwrap (makeInitialAead label destinationConnectionId version))
  = Some {| key := expandLabel kd secret "quic key" [] (keyLength engine);
            iv := expandLabel kd secret "quic iv" [] (ivLength engine) |}
  /\
  keyLength (unwrap (makeInitialAead label destinationConnectionId version))
  = keyLength engine
  /\
  ivLength (unwrap (makeInitialAead label destinationConnectionId version))
  = ivLength engine.
Proof.
  cbv zeta.
  pose proof (makeInitialTrafficSecret_refines
                label destinationConnectionId version) as E.
  unfold spec_deriveInitialTrafficSecret in E.
  split; [exact E |].
  unfold makeInitialAead, folly.coalesce, folly.IOBuf_create0,
    kQuicKeyLabel, kQuicIVLabel.
  rewrite E. repeat split.
Qed.

(** C9. Under a version the salt switch has no case for, the derivation
    still returns a secret: the one obtained with the draft-17 salt, which
    is the secret derived under MVFST_OLD. *)
Theorem makeInitialTrafficSecret_unrecognized_as_MVFST_OLD
    (label : folly.StringPiece) (destinationConnectionId : ConnectionId)
    (version : QuicVersion) :
  recognized version = false ->
  let kd := makeKeyDeriver TLS_AES_128_GCM_SHA256 in
  makeInitialTrafficSecret label destinationConnectionId version =
  expandLabel kd
    (hkdfExtract kd (folly.range_of_piece kQuicDraft17Salt)
                 destinationConnectionId)
    label [] Sha256_HashLen
  /\
  makeInitialTrafficSecret label destinationConnectionId version =
  makeInitialTrafficSecret label destinationConnectionId MVFST_OLD.
Proof.
  intros R. destruct version; try discriminate R. split; reflexivity.
Qed.

(** ** Version sensitivity *)

(** The stable MVFST version and draft-22 select one salt, so their
    secrets are the same bytes. *)
Lemma makeInitialTrafficSecret_MVFST_QUIC_DRAFT_22
    (label : folly.StringPiece) (cid : ConnectionId) :
  makeInitialTrafficSecret label cid MVFST =
  makeInitialTrafficSecret label cid QUIC_DRAFT_22.
Proof. reflexivity. Qed.

(** Two versions that select different salts get different secrets as soon
    as the deriver of the 128-bit suite maps different salts to different
    extractions and different extractions to different expansions.  Whether
    the deriver in use does so is a property of the primitive, not of the
    factory. *)
Lemma makeInitialTrafficSecret_separates_salts
    (label : folly.StringPiece) (cid : ConnectionId) (v w : QuicVersion) :
  let kd := makeKeyDeriver TLS_AES_128_GCM_SHA256 in
  (forall s t, hkdfExtract kd s cid = hkdfExtract kd t cid -> s = t) ->
  (forall x y, expandLabel kd x label [] Sha256_HashLen =
               expandLabel kd y label [] Sha256_HashLen -> x = y) ->
  folly.range_of_piece (spec_salt v) <> folly.range_of_piece (spec_salt w) ->
  makeInitialTrafficSecret label cid v <> makeInitialTrafficSecret label cid w.
Proof.
  intros kd Hext Hexp Hsalt E.
  rewrite !makeInitialTrafficSecret_refines in E.
  apply Hsalt, Hext, Hexp, E.
Qed.

(** ** The initial AEAD across versions *)

(** X4. Versions that select one salt get one initial AEAD: the stable
    MVFST version and draft-22 get the same key and iv, and so do MVFST_OLD
    and every version the salt switch has no case for. *)
Theorem makeInitialAead_shared_by_versions (label : folly.StringPiece)
    (cid : ConnectionId) (tag : N) :
  makeInitialAead label cid MVFST = makeInitialAead label cid QUIC_DRAFT_22
  /\
  makeInitialAead label cid (OtherVersion tag) =
  makeInitialAead label cid MVFST_OLD.
Proof. split; reflexivity. Qed.

End FizzCryptoFactory.

(** ** The factory on concrete bytes *)

Example makeInitialTrafficSecret_sample :
  makeInitialTrafficSecret "s17" "s22" "s23" (fun _ => concatKeyDerivation)
    "client in" sampleConnId MVFST =
  ["s"; "2"; "2"; x83; x94; xc8; xf0; x3e; x51; x57; x08;
   "c"; "l"; "i"; "e"; "n"; "t"; " "; "i"; "n"]%byte.
Proof. reflexivity. Qed.

Example makePacketNumberCipher_chacha_throws :
  makePacketNumberCipher_CipherSuite (OtherCipherSuite 4867) =
  inl "Packet number cipher not implemented".
Proof. reflexivity. Qed.

Lemma makeInitialTrafficSecret_unrecognized_witness :
  recognized (OtherVersion 0) = false /\
  makeInitialTrafficSecret "s17" "s22" "s23" (fun _ => concatKeyDerivation)
    "server in" sampleConnId (OtherVersion 0) =
  makeInitialTrafficSecret "s17" "s22" "s23" (fun _ => concatKeyDerivation)
    "server in" sampleConnId MVFST_OLD.
Proof.
  split; [reflexivity |].
  exact (proj2 (makeInitialTrafficSecret_unrecognized_as_MVFST_OLD
                  "s17" "s22" "s23" (fun _ => concatKeyDerivation)
                  "server in" sampleConnId (OtherVersion 0) eq_refl)).
Defined.

Example makeInitialTrafficSecret_sample_versions_differ :
  makeInitialTrafficSecret "s17" "s22" "s23"
    (fun _ => untruncatedKeyDerivation) "client in" sampleConnId MVFST_OLD
  <>
  makeInitialTrafficSecret "s17" "s22" "s23"
    (fun _ => untruncatedKeyDerivation) "client in" sampleConnId QUIC_DRAFT.
Proof.
  apply makeInitialTrafficSecret_separates_salts.
  - intros s t E. exact (app_inv_tail _ _ _ E).
  - intros x y E. exact (app_inv_tail _ _ _ E).
  - discriminate.
Qed.

(** ** The record layers composed *)

(** X1. Two reads in a row, on either adapter: the first takes whatever is
    queued, the second finds nothing and returns no message, and the queue
    ends with nothing in it.  No byte is handed out twice. *)
Theorem read_twice_second_is_none (level : EncryptionLevel)
    (buf : folly.IOBufQueue) :
  let first :=
    if folly.empty buf then None
    else Some {| type := handshake; fragment := buf |} in
  runState
    (m1 <- QuicPlaintextReadRecordLayer.read makePlaintextReadRecordLayer ;;
     m2 <- QuicPlaintextReadRecordLayer.read makePlaintextReadRecordLayer ;;
     ret (m1, m2)) buf = ((first, None), [])
  /\
  runState
    (m1 <- QuicEncryptedReadRecordLayer.read
             (makeEncryptedReadRecordLayer level) ;;
     m2 <- QuicEncryptedReadRecordLayer.read
             (makeEncryptedReadRecordLayer level) ;;
     ret (m1, m2)) buf = ((first, None), []).
Proof. destruct buf; split; reflexivity. Qed.

(** X2. Reading back what a write adapter wrote returns the message that
    was written exactly when that message is of content type handshake and
    its fragment is not empty: the content type does not travel, and an
    empty fragment reads as no message. *)
Theorem write_then_read_roundtrip (writeLevel readLevel : EncryptionLevel)
    (msg : TLSMessage) :
  (runState
     (QuicEncryptedReadRecordLayer.read
        (makeEncryptedReadRecordLayer readLevel))
     (data (QuicEncryptedWriteRecordLayer.write
              (makeEncryptedWriteRecordLayer writeLevel) msg))
   = (Some msg, [])
   <-> type msg = handshake /\ fragment msg <> [])
  /\
  (runState
     (QuicPlaintextReadRecordLayer.read makePlaintextReadRecordLayer)
     (data (QuicPlaintextWriteRecordLayer.write
              makePlaintextWriteRecordLayer msg))
   = (Some msg, [])
   <-> type msg = handshake /\ fragment msg <> []).
Proof.
  rewrite encrypted_read_run, plaintext_read_run.
  destruct msg as [t f]; simpl.
  split; (split; [intros H | intros [-> Hf]]).
  all: destruct f as [| b f]; simpl in *;
    try discriminate H; try (exfalso; apply Hf; reflexivity);
    try reflexivity.
  all: inversion H; subst; split; [reflexivity | discriminate].
Qed.

(** X3. Writing a message that a read adapter returned gives back the bytes
    that were queued, tagged handshake and with the level of the write
    adapter; the read left nothing in the queue. *)
Theorem read_then_write_roundtrip (level : EncryptionLevel)
    (buf rest : folly.IOBufQueue) (msg : TLSMessage) :
  runState
    (QuicEncryptedReadRecordLayer.read (makeEncryptedReadRecordLayer level))
    buf = (Some msg, rest) ->
  QuicEncryptedWriteRecordLayer.write
    (makeEncryptedWriteRecordLayer level) msg =
  {| data := buf; contentType := handshake; encryptionLevel := level |}
  /\
  QuicPlaintextWriteRecordLayer.write makePlaintextWriteRecordLayer msg =
  {| data := buf; contentType := handshake; encryptionLevel := Plaintext |}
  /\ rest = [].
Proof.
  rewrite encrypted_read_run.
  destruct buf as [| b buf]; simpl; intros H; inversion H; subst.
  repeat split.
Qed.

Lemma read_then_write_roundtrip_witness :
  QuicEncryptedWriteRecordLayer.write
    (makeEncryptedWriteRecordLayer Handshake)
    {| type := handshake; fragment := [x01; x00]%byte |} =
  {| data := [x01; x00]%byte;
     contentType := handshake;
     encryptionLevel := Handshake |}.
Proof.
  exact (proj1 (read_then_write_roundtrip Handshake [x01; x00]%byte []
                  {| type := handshake; fragment := [x01; x00]%byte |}
                  eq_refl)).
Defined.

(** * Properties of the tperf tool *)

(** ** The congestion flag *)

Ltac split_eqb :=
  repeat match goal with
  | |- context [String.eqb ?a ?b] => destruct (String.eqb_spec a b)
  | H : context [String.eqb ?a ?b] |- _ => destruct (String.eqb_spec a b)
  end.

Lemma flagsToCongestionControlType_unknown (name : string) :
  ~ In name congestionNames ->
  flagsToCongestionControlType name =
  inl ("Unknown congestion controller " ++ name).
Proof.
  intros H. unfold flagsToCongestionControlType.
  split_eqb; try reflexivity; exfalso; apply H; subst; simpl; tauto.
Qed.

Lemma flagsToCongestionControlType_known (name : string) :
  In name congestionNames ->
  exists t, flagsToCongestionControlType name = inr t.
Proof.
  simpl. intros [<- | [<- | [<- | [<- | [<- | []]]]]]; eexists; reflexivity.
Qed.

(** X5. The congestion flag is understood exactly when it is one of
    "cubic", "newreno", "bbr", "copa" and "none", spelled so; any other
    string throws [std::invalid_argument] whose text is "Unknown congestion
    controller " followed by the string. *)
Theorem flagsToCongestionControlType_accepts (name : string) :
  ((exists t, flagsToCongestionControlType name = inr t)
   <-> In name congestionNames)
  /\
  (flagsToCongestionControlType name =
     inl ("Unknown congestion controller " ++ name)
   <-> ~ In name congestionNames).
Proof.
  assert (D : In name congestionNames \/ ~ In name congestionNames).
  { destruct (in_dec string_dec name congestionNames); tauto. }
  destruct D as [Hin | Hout].
  - destruct (flagsToCongestionControlType_known name Hin) as [t E].
    split; split; intros H; try assumption; try (now exists t).
    + rewrite E in H. discriminate H.
    + contradiction.
  - pose proof (flagsToCongestionControlType_unknown name Hout) as E.
    split; split; intros H; try assumption.
    + destruct H as [t H]. rewrite E in H. discriminate H.
    + contradiction.
Qed.

(** X6. No two names select the same congestion controller. *)
Theorem flagsToCongestionControlType_injective (name name' : string)
    (t : CongestionControlType.t) :
  flagsToCongestionControlType name = inr t ->
  flagsToCongestionControlType name' = inr t ->
  name = name'.
Proof.
  unfold flagsToCongestionControlType.
  split_eqb; subst; simpl; intros H H'; try discriminate H;
    try discriminate H'; try reflexivity;
    inversion H; subst t; discriminate H'.
Qed.

Lemma flagsToCongestionControlType_injective_witness :
  flagsToCongestionControlType "bbr" = inr CongestionControlType.BBR /\
  "bbr" = "bbr".
Proof.
  split; [reflexivity |].
  exact (flagsToCongestionControlType_injective
           "bbr" "bbr" CongestionControlType.BBR eq_refl eq_refl).
Defined.

(** ** The client's byte counters *)

Lemma size_t_add_lt (a b : N) : (size_t_add a b < 2 ^ 64)%N.
Proof. unfold size_t_add. apply N.mod_lt. discriminate. Qed.

Lemma map_total_index_add (id : StreamId) (n : N) (m : StreamMap) :
  (map_total (map_index_add id n m) mod 2 ^ 64 =
   (map_total m + n) mod 2 ^ 64)%N.
Proof.
  unfold map_total.
  induction m as [| [k v] rest IH]; cbn [map_index_add fold_right snd].
  - unfold size_t_add. rewrite N.add_0_r, N.add_0_l.
    apply N.Div0.mod_mod.
  - destruct (id <? k)%N; [| destruct (id =? k)%N];
      cbn [fold_right snd]; unfold size_t_add.
    + rewrite N.add_0_l, N.Div0.add_mod_idemp_l. f_equal. lia.
    + rewrite N.Div0.add_mod_idemp_l. f_equal. lia.
    + rewrite <- (N.Div0.add_mod_idemp_r v), IH, N.Div0.add_mod_idemp_r.
      f_equal. lia.
Qed.

Lemma map_find_index_add_other (id j : StreamId) (n : N) (m : StreamMap) :
  id <> j -> map_find j (map_index_add id n m) = map_find j m.
Proof.
  intros D. induction m as [| [k v] rest IH]; simpl.
  - destruct (N.eqb_spec id j); [contradiction | reflexivity].
  - destruct (N.ltb_spec id k); [| destruct (N.eqb_spec id k)]; simpl.
    + destruct (N.eqb_spec id j); [contradiction | reflexivity].
    + subst k. destruct (N.eqb_spec id j); [contradiction | reflexivity].
    + rewrite IH. reflexivity.
Qed.

Lemma keys_above_find_none (bound id : N) (m : StreamMap) :
  keys_above bound m -> (id <= bound)%N -> map_find id m = None.
Proof.
  revert bound. induction m as [| [k v] rest IH]; simpl; intros bound H L.
  - reflexivity.
  - destruct H as [Hk Hrest].
    destruct (N.eqb_spec k id); [lia |].
    apply (IH k Hrest). lia.
Qed.

Lemma keys_above_index_add (bound id n : N) (m : StreamMap) :
  keys_above bound m -> (bound < id)%N ->
  keys_above bound (map_index_add id n m).
Proof.
  revert bound. induction m as [| [k v] rest IH]; simpl; intros bound H L.
  - tauto.
  - destruct H as [Hk Hrest].
    destruct (N.ltb_spec id k); [| destruct (N.eqb_spec id k)]; simpl.
    + tauto.
    + tauto.
    + split; [assumption |]. apply IH; [assumption | lia].
Qed.

Lemma keys_ascend_index_add (id n : N) (m : StreamMap) :
  keys_ascend m -> keys_ascend (map_index_add id n m).
Proof.
  destruct m as [| [k v] rest]; simpl; intros H.
  - exact I.
  - destruct (N.ltb_spec id k); [| destruct (N.eqb_spec id k)]; simpl.
    + tauto.
    + assumption.
    + apply keys_above_index_add; [assumption | lia].
Qed.

Lemma map_find_index_add_same (id n : N) (m : StreamMap) :
  keys_ascend m ->
  map_find id (map_index_add id n m) =
  Some (size_t_add (match map_find id m with Some v => v | None => 0%N end)
                   n).
Proof.
  induction m as [| [k v] rest IH]; simpl; intros H.
  - rewrite N.eqb_refl. reflexivity.
  - destruct (N.ltb_spec id k); [| destruct (N.eqb_spec id k)]; simpl.
    + rewrite N.eqb_refl.
      destruct (N.eqb_spec k id); [lia |].
      rewrite (keys_above_find_none k id rest H); [reflexivity | lia].
    + subst k. rewrite N.eqb_refl. reflexivity.
    + destruct (N.eqb_spec k id); [congruence |].
      apply IH. destruct rest as [| [k' v'] rest']; simpl in *; tauto.
Qed.

Lemma readAvailable_all_app (self : TPerfClient)
    (calls calls' : list (StreamId * ReadResult)) :
  TPerfClient_readAvailable_all self (calls ++ calls')%list =
  match TPerfClient_readAvailable_all self calls with
  | Some c => TPerfClient_readAvailable_all c calls'
  | None => None
  end.
Proof.
  revert self. induction calls as [| [id r] calls IH]; simpl; intros self.
  - reflexivity.
  - destruct (TPerfClient_readAvailable self id r); [apply IH | reflexivity].
Qed.

(** The sum of the lengths all successful calls delivered. *)
Lemma delivered_on_app (id : StreamId)
    (calls calls' : list (StreamId * ReadResult)) :
  delivered_on id (calls ++ calls')%list =
  (delivered_on id calls + delivered_on id calls')%N.
Proof.
  induction calls as [| [k [e | [buf eof]]] calls IH]; simpl;
    rewrite ?IH; lia.
Qed.

Lemma not_called_nothing_delivered (id : StreamId)
    (calls : list (StreamId * ReadResult)) :
  called_on id calls = false -> delivered_on id calls = 0%N.
Proof.
  unfold called_on.
  induction calls as [| [k [e | [buf eof]]] calls IH]; simpl; intros H;
    try reflexivity; apply orb_false_elim in H; destruct H as [Hk H];
    rewrite ?Hk, (IH H); reflexivity.
Qed.

Lemma delivered_app (calls calls' : list (StreamId * ReadResult)) :
  delivered (calls ++ calls')%list = (delivered calls + delivered calls')%N.
Proof.
  induction calls as [| [k [e | [buf eof]]] calls IH]; simpl;
    rewrite ?IH; lia.
Qed.

Lemma counters_ok_step (calls : list (StreamId * ReadResult))
    (c c' : TPerfClient) (k : StreamId) (r : ReadResult) :
  counters_ok calls c ->
  TPerfClient_readAvailable c k r = Some c' ->
  counters_ok (calls ++ [(k, r)])%list c'.
Proof.
  intros (Hasc & Hrecv & Hsum & Hfind) Hstep.
  destruct r as [e | [buf eof]]; [discriminate Hstep |].
  injection Hstep as <-. unfold counters_ok.
  cbn [bytesPerStream_ receivedBytes_].
  repeat split.
  - now apply keys_ascend_index_add.
  - rewrite delivered_app. cbn [delivered]. rewrite N.add_0_r.
    unfold size_t_add. rewrite Hrecv. apply N.Div0.add_mod_idemp_l.
  - rewrite map_total_index_add. unfold size_t_add. rewrite Hsum.
    apply N.Div0.add_mod_idemp_l.
  - intros id. unfold called_on. rewrite existsb_app.
    fold (called_on id calls). rewrite delivered_on_app.
    cbn [existsb fst delivered_on]. rewrite orb_false_r, N.add_0_r.
    destruct (N.eqb_spec k id) as [-> | D].
    + rewrite map_find_index_add_same by assumption.
      rewrite Hfind, orb_true_r. f_equal. unfold size_t_add.
      destruct (called_on id calls) eqn:C.
      * apply N.Div0.add_mod_idemp_l.
      * rewrite (not_called_nothing_delivered id calls C). reflexivity.
    + rewrite map_find_index_add_other by assumption.
      rewrite Hfind, orb_false_r, N.add_0_r. reflexivity.
Qed.

Lemma counters_ok_run (host : string) (port res : N) (duration : Z)
    (window : N) (gso : bool) (cc : CongestionControlType.t)
    (calls : list (StreamId * ReadResult)) (c : TPerfClient) :
  TPerfClient_readAvailable_all
    (TPerfClient_ctor host port res duration window gso cc) calls = Some c ->
  counters_ok calls c.
Proof.
  revert c. induction calls as [| [k r] calls IH] using rev_ind; intros c.
  - simpl. intros [= <-]. unfold counters_ok. simpl. repeat split.
  - rewrite readAvailable_all_app.
    destruct (TPerfClient_readAvailable_all _ calls) as [c0 |];
      [| discriminate].
    simpl. destruct (TPerfClient_readAvailable c0 k r) as [c1 |] eqn:E;
      [| discriminate].
    intros [= <-]. eapply counters_ok_step; [apply IH; reflexivity | exact E].
Qed.

(** X7. After any sequence of [readAvailable] calls that the client has
    survived, starting from a newly constructed client, [receivedBytes_] is
    the number of bytes those calls delivered, and it is the sum of the
    per-stream counts, both modulo 2^64. *)
Theorem readAvailable_total_is_sum_of_streams (host : string) (port res : N)
    (duration : Z) (window : N) (gso : bool) (cc : CongestionControlType.t)
    (calls : list (StreamId * ReadResult)) (c : TPerfClient) :
  TPerfClient_readAvailable_all
    (TPerfClient_ctor host port res duration window gso cc) calls = Some c ->
  receivedBytes_ c = (delivered calls mod 2 ^ 64)%N /\
  receivedBytes_ c = (map_total (bytesPerStream_ c) mod 2 ^ 64)%N.
Proof.
  intros H. destruct (counters_ok_run _ _ _ _ _ _ _ _ _ H) as (_ & A & B & _).
  split; assumption.
Qed.

(** X8. After such a sequence, [bytesPerStream_] has an entry for a stream
    exactly when some call was for that stream, and the entry is the number
    of bytes the calls for that stream delivered, modulo 2^64; a call that
    delivered no bytes still leaves an entry, of zero. *)
Theorem readAvailable_per_stream_count (host : string) (port res : N)
    (duration : Z) (window : N) (gso : bool) (cc : CongestionControlType.t)
    (calls : list (StreamId * ReadResult)) (c : TPerfClient)
    (id : StreamId) :
  TPerfClient_readAvailable_all
    (TPerfClient_ctor host port res duration window gso cc) calls = Some c ->
  map_find id (bytesPerStream_ c) =
  if called_on id calls
  then Some (delivered_on id calls mod 2 ^ 64)%N
  else None.
Proof.
  intros H. destruct (counters_ok_run _ _ _ _ _ _ _ _ _ H) as (_ & _ & _ & F).
  apply F.
Qed.


Example readAvailable_sample_run :
  option_map (fun c => (receivedBytes_ c, bytesPerStream_ c))
    (TPerfClient_readAvailable_all
       (TPerfClient_ctor "::1" 6666 1 10 65536 false
                         CongestionControlType.NewReno)
       sampleCalls) =
  Some (3%N, [(3%N, 2%N); (7%N, 1%N)]).
Proof. reflexivity. Qed.

Lemma readAvailable_total_witness :
  exists c,
    TPerfClient_readAvailable_all
      (TPerfClient_ctor "::1" 6666 1 10 65536 false
                        CongestionControlType.NewReno)
      sampleCalls = Some c /\
    receivedBytes_ c = (delivered sampleCalls mod 2 ^ 64)%N /\
    receivedBytes_ c = (map_total (bytesPerStream_ c) mod 2 ^ 64)%N.
Proof.
  eexists. split; [reflexivity |].
  exact (readAvailable_total_is_sum_of_streams
           "::1" 6666 1 10 65536 false CongestionControlType.NewReno
           sampleCalls _ eq_refl).
Defined.

Lemma readAvailable_per_stream_witness :
  exists c,
    TPerfClient_readAvailable_all
      (TPerfClient_ctor "::1" 6666 1 10 65536 false
                        CongestionControlType.NewReno)
      sampleCalls = Some c /\
    map_find 3%N (bytesPerStream_ c) = Some 2%N.
Proof.
  eexists. split; [reflexivity |].
  exact (readAvailable_per_stream_count
           "::1" 6666 1 10 65536 false CongestionControlType.NewReno
           sampleCalls _ 3%N eq_refl).
Defined.

(** ** [main] *)

Lemma main_server (serverSettings0 clientSettings0 : TransportSettings)
    (flags : Flags) :
  FLAGS_mode flags = "server" ->
  main serverSettings0 clientSettings0 flags =
  match flagsToCongestionControlType (FLAGS_congestion flags) with
  | inl e => inl e
  | inr cc =>
      inr (ServerStarted
             (TPerfServer_ctor serverSettings0 (FLAGS_host flags)
                (to_uint16 (FLAGS_port flags)) (FLAGS_block_size flags)
                (FLAGS_writes_per_loop flags) cc (FLAGS_gso flags)
                (FLAGS_max_cwnd_mss flags) (FLAGS_pacing flags)
                (FLAGS_num_streams flags)))
  end.
Proof.
  intros M. unfold main. rewrite M. simpl.
  destruct (flagsToCongestionControlType (FLAGS_congestion flags));
    reflexivity.
Qed.

Lemma main_client (serverSettings0 clientSettings0 : TransportSettings)
    (flags : Flags) :
  FLAGS_mode flags = "client" ->
  main serverSettings0 clientSettings0 flags =
  match flagsToCongestionControlType (FLAGS_congestion flags) with
  | inl e => inl e
  | inr cc =>
      let client :=
        TPerfClient_ctor (FLAGS_host flags) (to_uint16 (FLAGS_port flags))
          (FLAGS_client_transport_timer_resolution_ms flags)
          (FLAGS_duration flags) (FLAGS_window flags) (FLAGS_gso flags) cc in
      inr (ClientStarted client (TPerfClient_start client clientSettings0))
  end.
Proof.
  intros M. unfold main. rewrite M. simpl.
  destruct (flagsToCongestionControlType (FLAGS_congestion flags));
    reflexivity.
Qed.

Lemma main_other (serverSettings0 clientSettings0 : TransportSettings)
    (flags : Flags) :
  FLAGS_mode flags <> "server" -> FLAGS_mode flags <> "client" ->
  main serverSettings0 clientSettings0 flags = inr NothingStarted.
Proof.
  intros S C. unfold main.
  destruct (String.eqb_spec (FLAGS_mode flags) "server"); [contradiction |].
  destruct (String.eqb_spec (FLAGS_mode flags) "client"); [contradiction |].
  reflexivity.
Qed.

Lemma mode_cases (flags : Flags) :
  FLAGS_mode flags = "server" \/ FLAGS_mode flags = "client" \/
  (FLAGS_mode flags <> "server" /\ FLAGS_mode flags <> "client").
Proof.
  destruct (string_dec (FLAGS_mode flags) "server"); [tauto |].
  destruct (string_dec (FLAGS_mode flags) "client"); tauto.
Qed.

(** X10. [main] starts nothing and goes straight to its [return 0] exactly
    when the mode flag is neither "server" nor "client"; it does so without
    looking at the congestion flag, so a misspelt mode hides a misspelt
    congestion controller. *)
Theorem main_unknown_mode_starts_nothing
    (serverSettings0 clientSettings0 : TransportSettings) (flags : Flags) :
  main serverSettings0 clientSettings0 flags = inr NothingStarted
  <-> FLAGS_mode flags <> "server" /\ FLAGS_mode flags <> "client".
Proof.
  split.
  - intros H. destruct (mode_cases flags) as [M | [M | M]]; [| | exact M].
    + rewrite (main_server _ _ _ M) in H.
      destruct (flagsToCongestionControlType _); discriminate H.
    + rewrite (main_client _ _ _ M) in H.
      destruct (flagsToCongestionControlType _); discriminate H.
  - intros [S C]. now apply main_other.
Qed.


Lemma to_uint16_spec (z : Z) :
  Z.of_N (to_uint16 z) = (z mod 2 ^ 16)%Z.
Proof.
  unfold to_uint16. rewrite Z2N.id; [reflexivity |].
  apply Z.mod_pos_bound. reflexivity.
Qed.

(** X12. The port flag is a signed 32-bit number and the server and the
    client take a 16-bit one: the port they get is the flag modulo 65536,
    so it is the flag itself exactly when the flag is a port number. *)
Theorem main_port_is_flag_mod_65536
    (serverSettings0 clientSettings0 : TransportSettings) (flags : Flags)
    (cc : CongestionControlType.t) :
  flagsToCongestionControlType (FLAGS_congestion flags) = inr cc ->
  (FLAGS_mode flags = "server" ->
   exists server,
     main serverSettings0 clientSettings0 flags = inr (ServerStarted server)
     /\ Z.of_N (server_port_ server) = (FLAGS_port flags mod 65536)%Z)
  /\
  (FLAGS_mode flags = "client" ->
   exists client settings,
     main serverSettings0 clientSettings0 flags =
       inr (ClientStarted client settings)
     /\ Z.of_N (client_port_ client) = (FLAGS_port flags mod 65536)%Z)
  /\
  ((FLAGS_port flags mod 65536 = FLAGS_port flags)%Z
   <-> (0 <= FLAGS_port flags < 65536)%Z).
Proof.
  intros E. split; [| split].
  - intros M. rewrite (main_server _ _ _ M), E.
    eexists. split; [reflexivity |]. apply to_uint16_spec.
  - intros M. rewrite (main_client _ _ _ M), E.
    eexists. eexists. split; [reflexivity |]. apply to_uint16_spec.
  - split; intros H.
    + rewrite <- H. apply Z.mod_pos_bound. reflexivity.
    + apply Z.mod_small. exact H.
Qed.

Lemma main_port_witness :
  exists server,
    main sampleSettings sampleSettings
      (sampleFlags "server" 72202 false 65536) = inr (ServerStarted server)
    /\ Z.of_N (server_port_ server) = 6666%Z.
Proof.
  exact (proj1 (main_port_is_flag_mod_65536 sampleSettings sampleSettings
                  (sampleFlags "server" 72202 false 65536)
                  CongestionControlType.NewReno eq_refl) eq_refl).
Defined.

(** X13. In client mode [main] reads the host, port, duration, window,
    congestion, gso and timer resolution flags and nothing else: two
    command lines that agree on these (the port modulo 65536) start the same
    client with the same settings, whatever their pacing, block size, writes
    per loop, cwnd, stream count and qlogger flags say. *)
Theorem main_client_ignores_server_flags
    (serverSettings0 serverSettings0' clientSettings0 : TransportSettings)
    (f g : Flags) :
  FLAGS_mode f = "client" -> FLAGS_mode g = "client" ->
  FLAGS_host f = FLAGS_host g ->
  (FLAGS_port f mod 65536 = FLAGS_port g mod 65536)%Z ->
  FLAGS_duration f = FLAGS_duration g ->
  FLAGS_window f = FLAGS_window g ->
  FLAGS_congestion f = FLAGS_congestion g ->
  FLAGS_gso f = FLAGS_gso g ->
  FLAGS_client_transport_timer_resolution_ms f =
  FLAGS_client_transport_timer_resolution_ms g ->
  main serverSettings0 clientSettings0 f =
  main serverSettings0' clientSettings0 g.
Proof.
  intros Mf Mg Hh Hp Hd Hw Hc Hg Hr.
  rewrite (main_client _ _ _ Mf), (main_client _ _ _ Mg).
  unfold to_uint16. change (2 ^ 16)%Z with 65536%Z.
  rewrite Hh, Hp, Hd, Hw, Hc, Hg, Hr. reflexivity.
Qed.

Lemma main_client_ignores_server_flags_witness :
  main sampleSettings sampleSettings (sampleFlags "client" 6666 false 65536) =
  main sampleSettings sampleSettings (sampleFlags "client" 72202 true 65536).
Proof.
  exact (main_client_ignores_server_flags
           sampleSettings sampleSettings sampleSettings
           (sampleFlags "client" 6666 false 65536)
           (sampleFlags "client" 72202 true 65536)
           eq_refl eq_refl eq_refl eq_refl eq_refl eq_refl eq_refl eq_refl
           eq_refl).
Defined.

(** X14. In server mode [main] reads the host, port, block size, writes per
    loop, congestion, gso, cwnd, pacing and stream count flags: two command
    lines that agree on these (the port modulo 65536) construct the same
    server, whatever their duration, window and timer resolution flags
    say. *)
Theorem main_server_ignores_client_flags
    (serverSettings0 clientSettings0 clientSettings0' : TransportSettings)
    (f g : Flags) :
  FLAGS_mode f = "server" -> FLAGS_mode g = "server" ->
  FLAGS_host f = FLAGS_host g ->
  (FLAGS_port f mod 65536 = FLAGS_port g mod 65536)%Z ->
  FLAGS_block_size f = FLAGS_block_size g ->
  FLAGS_writes_per_loop f = FLAGS_writes_per_loop g ->
  FLAGS_congestion f = FLAGS_congestion g ->
  FLAGS_gso f = FLAGS_gso g ->
  FLAGS_max_cwnd_mss f = FLAGS_max_cwnd_mss g ->
  FLAGS_pacing f = FLAGS_pacing g ->
  FLAGS_num_streams f = FLAGS_num_streams g ->
  main serverSettings0 clientSettings0 f =
  main serverSettings0 clientSettings0' g.
Proof.
  intros Mf Mg Hh Hp Hb Hw Hc Hg Hm Hpa Hn.
  rewrite (main_server _ _ _ Mf), (main_server _ _ _ Mg).
  unfold to_uint16. change (2 ^ 16)%Z with 65536%Z.
  rewrite Hh, Hp, Hb, Hw, Hc, Hg, Hm, Hpa, Hn. reflexivity.
Qed.

Lemma main_server_ignores_client_flags_witness :
  main sampleSettings sampleSettings (sampleFlags "server" 6666 true 65536) =
  main sampleSettings sampleSettings (sampleFlags "server" (-58870) true 1).
Proof.
  exact (main_server_ignores_client_flags
           sampleSettings sampleSettings sampleSettings
           (sampleFlags "server" 6666 true 65536)
           (sampleFlags "server" (-58870) true 1)
           eq_refl eq_refl eq_refl eq_refl eq_refl eq_refl eq_refl eq_refl
           eq_refl eq_refl eq_refl).
Defined.

(** X15. Pacing.  The server's settings have pacing on exactly when the
    pacing argument is set, whatever the congestion controller, and the tick
    interval is 200 microseconds then and the default otherwise.  The
    client's settings have pacing on, with a 200 microsecond tick, whenever
    the controller is BBR; for any other controller pacing and the tick are
    left as the transport had them. *)
Theorem pacing_server_by_flag_client_by_bbr
    (settings0 : TransportSettings) (host : string)
    (port blockSize writesPerLoop : N) (cc : CongestionControlType.t)
    (gso : bool) (maxCwnd : N) (pacing : bool) (numStreams : N)
    (client : TPerfClient) :
  let server :=
    server_transportSettings
      (TPerfServer_ctor settings0 host port blockSize writesPerLoop cc gso
                        maxCwnd pacing numStreams) in
  let started := TPerfClient_start client settings0 in
  pacingEnabled server = pacing
  /\
  pacingTimerTickInterval server =
    (if pacing then 200%N else pacingTimerTickInterval settings0)
  /\
  (congestionControlType_ client = CongestionControlType.BBR ->
   pacingEnabled started = true /\ pacingTimerTickInterval started = 200%N)
  /\
  (congestionControlType_ client <> CongestionControlType.BBR ->
   pacingEnabled started = pacingEnabled settings0 /\
   pacingTimerTickInterval started = pacingTimerTickInterval settings0).
Proof.
  cbv zeta. unfold TPerfServer_ctor, TPerfClient_start.
  repeat split.
  - destruct pacing, gso; reflexivity.
  - destruct pacing, gso; reflexivity.
  - rewrite H. destruct (gso_ client); reflexivity.
  - rewrite H. destruct (gso_ client); reflexivity.
  - destruct (congestionControlType_ client), (gso_ client);
      try reflexivity; contradiction H; reflexivity.
  - destruct (congestionControlType_ client), (gso_ client);
      try reflexivity; contradiction H; reflexivity.
Qed.
